(** * Image Merge: the generation client and the upload form

    A shallow embedding of [services/geminiService.ts], [types.ts] and the
    state handling of [App.tsx], followed by the properties of the
    request/response life cycle and of the form's state transitions. *)

From Stdlib Require Import String Ascii List Bool Arith NArith ZArith Lia.
From Stdlib Require Import DecimalString DecimalPos DecimalN.
From ExtLib Require Import Structures.Monad Structures.MonadExc.
Import ListNotations.
Import MonadNotation.
Local Open Scope string_scope.
Local Open Scope list_scope.
Local Open Scope monad_scope.

(** ** JavaScript values, completions and effects *)

Module JS.

(** What a [throw] (or a rejected promise) can carry, as far as the code
    looks at it: [error instanceof Error] and then [error.message]. *)
Inductive JsValue : Type :=
| JsError (message : string)   (* an instance of Error *)
| JsOther.                     (* any value that is not an Error *)

(** The outcome of running a piece of code, or of awaiting a promise. *)
Inductive Completion (A : Type) : Type :=
| Normal (a : A)
| Throw (e : JsValue).
Arguments Normal {A} a.
Arguments Throw {A} e.

(** The sites of [response.candidates[0].content.parts] at which reading
    from [undefined] raises a TypeError.  The wording of the message is
    the engine's. *)
Inductive Deref : Type :=
| IndexOfCandidates     (* candidates is undefined: reading [0] *)
| ContentOfCandidate    (* candidates[0] is undefined: reading .content *)
| PartsOfContent        (* content is undefined: reading .parts *)
| IterateParts.         (* parts is undefined: for ... of *)

Class Engine : Type := { typeErrorMessage : Deref -> string }.

Definition TypeError `{Engine} (d : Deref) : JsValue :=
  JsError (typeErrorMessage d).

End JS.
Export JS.

(** ** The SDK's request and response types ([@google/genai]) *)

Module GenAI.

(** Modelled from the spec: the SDK's declarations of [Part] and of the
    response are not part of the repository.  Inline data is "encoded
    bytes + declared media type", as in the repository's own [ImagePart];
    the fields the code reads without a test ([candidates], [content],
    [parts]) are optional, as they are in a JSON answer. *)
Record Blob : Type := { data : string; mimeType : string }.

Record Part : Type := { text : option string; inlineData : option Blob }.

Record Content : Type := { parts : option (list Part) }.

Record Candidate : Type := { content : option Content }.

Record GenerateContentResponse : Type :=
  { candidates : option (list Candidate) }.

Inductive Modality : Type := TEXT | IMAGE | AUDIO.

(** The argument of [generateContent]: [contents] is the list under
    [contents: { parts: ... }], [responseModalities] the one under
    [config]. *)
Record GenerateContentParameters : Type :=
  { model : string;
    contents : list Part;
    responseModalities : list Modality }.

(** [ai.models]: the external service, an oracle that answers a request
    with a response or rejects. *)
Definition Models : Type :=
  GenerateContentParameters -> Completion GenerateContentResponse.

End GenAI.

(** ** [types.ts] *)

Module Types.

Inductive AspectRatio : Type := Square | Portrait | Landscape.

(** The string literal each member of the union type stands for. *)
Definition ratioToken (r : AspectRatio) : string :=
  match r with
  | Square => "1:1"
  | Portrait => "9:16"
  | Landscape => "16:9"
  end.

(** A browser [File], as far as the code observes it: its name, its
    media type and what a [FileReader] produces for [readAsDataURL]
    ([None] when the reader reports an error). *)
Record File : Type :=
  { name : string; type : string; dataURL : option string }.

Record ReferenceImage : Type :=
  { id : string; file : File; base64 : string }.

Record ImagePart : Type := { inlineData : GenAI.Blob }.

End Types.

(** ** The world the client runs in *)

Module Effects.

(** The requests that reached the external service, oldest first, and the
    values written with [console.error]. *)
Record World : Type :=
  { sent : list GenAI.GenerateContentParameters;
    console : list JsValue }.

Definition emptyWorld : World := {| sent := []; console := [] |}.

(** Code that may throw and that acts on the world.  A throw keeps the
    effects made before it. *)
Definition Js (A : Type) : Type := World -> Completion A * World.

#[global] Instance Monad_Js : Monad Js :=
  {| ret := fun A (a : A) w => (Normal a, w);
     bind := fun A B (c : Js A) (k : A -> Js B) w =>
               match c w with
               | (Normal a, w') => k a w'
               | (Throw e, w') => (Throw e, w')
               end |}.

#[global] Instance Exc_Js : MonadExc JsValue Js :=
  {| raise := fun A (e : JsValue) w => (Throw e, w);
     catch := fun A (c : Js A) (h : JsValue -> Js A) w =>
                match c w with
                | (Normal a, w') => (Normal a, w')
                | (Throw e, w') => h e w'
                end |}.

(** [await model.generateContent(request)]: the request reaches the
    service, whose answer is the completion of the await. *)
Definition generateContent (ai : GenAI.Models)
    (request : GenAI.GenerateContentParameters) : Js GenAI.GenerateContentResponse :=
  fun w => (ai request, {| sent := sent w ++ [request]; console := console w |}).

(** Code without effects, run inside effectful code. *)
Definition completed {A : Type} (c : Completion A) : Js A :=
  fun w => (c, w).

Definition console_error (v : JsValue) : Js unit :=
  fun w => (Normal tt, {| sent := sent w; console := console w ++ [v] |}).

End Effects.
Export Effects.

(** ** [services/geminiService.ts] *)

Module GeminiService.
Import GenAI Types.

Section Client.
Context `{Engine}.
Variable ai : Models.

(** The template literal of the prompt, around [${aspectRatio}]. *)
Definition promptHead : string :=
  "Combine the visual characteristics (style, colors, lighting, pose, outfit vibe, composition) of these reference images into a single new, coherent, and realistic image. The final image must have a ".

Definition promptTail : string :=
  " aspect ratio. Ensure consistent anatomy and lighting. The image should be high-detail, photorealistic, and PG-13. Crucially, DO NOT include any text, watermarks, or UI elements in the final image.".

Definition prompt (aspectRatio : string) : string :=
  promptHead ++ aspectRatio ++ promptTail.

(** An [ImagePart] spread into a [Part[]] is a part with inline data
    and no text. *)
Definition asPart (p : ImagePart) : Part :=
  {| text := None; GenAI.inlineData := Some (Types.inlineData p) |}.

(** [response.candidates[0].content.parts], up to the iterator of the
    [for ... of]. *)
Definition contentParts (response : GenerateContentResponse)
  : Completion (list Part) :=
  match candidates response with
  | None => Throw (TypeError IndexOfCandidates)
  | Some [] => Throw (TypeError ContentOfCandidate)
  | Some (candidate :: _) =>
      match content candidate with
      | None => Throw (TypeError PartsOfContent)
      | Some c =>
          match parts c with
          | None => Throw (TypeError IterateParts)
          | Some ps => Normal ps
          end
      end
  end.

(** [part.inlineData && part.inlineData.mimeType.startsWith('image/')] *)
Definition isImagePart (part : Part) : bool :=
  match GenAI.inlineData part with
  | Some blob => String.prefix "image/" (mimeType blob)
  | None => false
  end.

(** The [for] loop with its [return]: [Some] is the value returned from
    inside the loop, [None] is the loop running to its end. *)
Fixpoint scanParts (ps : list Part) : option string :=
  match ps with
  | [] => None
  | part :: rest =>
      match GenAI.inlineData part with
      | Some blob =>
          if String.prefix "image/" (mimeType blob)
          then Some (data blob)
          else scanParts rest
      | None => scanParts rest
      end
  end.

Definition noImageMessage : string :=
  "No image was generated. The model may have refused the request due to safety policies.".

Definition unknownErrorMessage : string :=
  "An unknown error occurred during image generation.".

(** The body of the [try] block. *)
Definition tryBlock (request : GenerateContentParameters) : Js string :=
  response <- generateContent ai request ;;
  ps <- completed (contentParts response) ;;
  match scanParts ps with
  | Some payload => ret payload
  | None => raise (JsError noImageMessage)
  end.

(** The [catch] block. *)
Definition catchBlock (error : JsValue) : Js string :=
  console_error error ;;
  let errorMessage :=
    match error with
    | JsError message => message
    | JsOther => unknownErrorMessage
    end in
  raise (JsError ("Failed to generate image: " ++ errorMessage)).

(** The argument of [model.generateContent]: the text part, then the
    image parts. *)
Definition requestFor (imageParts : list ImagePart) (aspectRatio : string)
  : GenerateContentParameters :=
  let textPart := {| text := Some (prompt aspectRatio);
                     GenAI.inlineData := None |} in
  let contents := textPart :: map asPart imageParts in
  {| model := "gemini-2.5-flash-image";
     contents := contents;
     responseModalities := [IMAGE] |}.

Definition generateImageFromReferences
    (imageParts : list ImagePart) (aspectRatio : string) : Js string :=
  if (List.length imageParts <? 2)%nat || (4 <? List.length imageParts)%nat
  then raise (JsError "Please provide 2 to 4 reference images.")
  else catch (tryBlock (requestFor imageParts aspectRatio)) catchBlock.

End Client.

End GeminiService.

(** ** [App.tsx]: the state of the form and its handlers *)

Module App.
Import GenAI Types.

(** The five [useState] cells of the component. *)
Record AppState : Type :=
  { referenceImages : list ReferenceImage;
    aspectRatio : AspectRatio;
    generatedImage : option string;
    isLoading : bool;
    error : option string }.

Definition initialState : AppState :=
  {| referenceImages := [];
     aspectRatio := Square;
     generatedImage := None;
     isLoading := false;
     error := None |}.

Definition setReferenceImages
    (update : list ReferenceImage -> list ReferenceImage) (s : AppState) : AppState :=
  {| referenceImages := update (referenceImages s);
     aspectRatio := aspectRatio s;
     generatedImage := generatedImage s;
     isLoading := isLoading s;
     error := error s |}.

Definition setAspectRatio (r : AspectRatio) (s : AppState) : AppState :=
  {| referenceImages := referenceImages s;
     aspectRatio := r;
     generatedImage := generatedImage s;
     isLoading := isLoading s;
     error := error s |}.

Definition setGeneratedImage (g : option string) (s : AppState) : AppState :=
  {| referenceImages := referenceImages s;
     aspectRatio := aspectRatio s;
     generatedImage := g;
     isLoading := isLoading s;
     error := error s |}.

Definition setIsLoading (b : bool) (s : AppState) : AppState :=
  {| referenceImages := referenceImages s;
     aspectRatio := aspectRatio s;
     generatedImage := generatedImage s;
     isLoading := b;
     error := error s |}.

Definition setError (e : option string) (s : AppState) : AppState :=
  {| referenceImages := referenceImages s;
     aspectRatio := aspectRatio s;
     generatedImage := generatedImage s;
     isLoading := isLoading s;
     error := e |}.

(** [s.split(sep)] for a one-character separator. *)
Fixpoint split (sep : ascii) (s : string) : list string :=
  match s with
  | EmptyString => [EmptyString]
  | String c rest =>
      if Ascii.eqb c sep then EmptyString :: split sep rest
      else match split sep rest with
           | field :: fields => String c field :: fields
           | [] => [String c EmptyString]
           end
  end.

(** [fileToBase64]: the reader's result without its
    [data:image/...;base64,] prefix, or the rejection with the reader's
    error event, which is not an [Error].  A data URL holds a comma; for
    a result without one [split(',')[1]] is [undefined] in the source and
    the empty string here, a value no property below reads. *)
Definition fileToBase64 (f : File) : Completion string :=
  match dataURL f with
  | Some result => Normal (nth 1 (split "," result) "")
  | None => Throw JsOther
  end.

(** A number in a template literal: its decimal digits. *)
Definition numberToString (n : N) : string :=
  NilZero.string_of_uint (N.to_uint n).

(** The [id] of a new image: [`${file.name}-${Date.now()}`]. *)
Definition makeId (fileName : string) (now : N) : string :=
  fileName ++ "-" ++ numberToString now.

(** The callback mapped over the files, run on a file at clock reading
    [now]. *)
Definition newImage (f : File) (now : N) : Completion ReferenceImage :=
  match fileToBase64 f with
  | Normal encoded => Normal {| id := makeId (name f) now; file := f; base64 := encoded |}
  | Throw e => Throw e
  end.

(** [Array.from(files).map(...)]: the callbacks start one after the
    other, the [k]-th of them reads the clock's [k]-th value. *)
Fixpoint mapFiles (clock : nat -> N) (k : nat) (files : list File)
  : list (Completion ReferenceImage) :=
  match files with
  | [] => []
  | f :: rest => newImage f (clock k) :: mapFiles clock (S k) rest
  end.

(** [Promise.all]: all the values in order, or a rejection. *)
Fixpoint promiseAll {A : Type} (ps : list (Completion A)) : Completion (list A) :=
  match ps with
  | [] => Normal []
  | Throw e :: _ => Throw e
  | Normal a :: rest =>
      match promiseAll rest with
      | Normal l => Normal (a :: l)
      | Throw e => Throw e
      end
  end.

(** [handleFileChange] up to its [await]: the new state and, when the
    batch is accepted, the promise the handler waits for.  [files] is
    [event.target.files], [None] for [null]. *)
Definition handleFileChange (files : option (list File)) (clock : nat -> N)
    (s : AppState) : AppState * option (Completion (list ReferenceImage)) :=
  match files with
  | None => (s, None)
  | Some fs =>
      if (4 <? List.length (referenceImages s) + List.length fs)%nat
      then (setError (Some "You can upload a maximum of 4 images.") s, None)
      else (setError None s, Some (promiseAll (mapFiles clock 0 fs)))
  end.

(** [handleFileChange] after its [await]: a rejection leaves the handler
    (nothing catches it), the images of a fulfilled batch are appended. *)
Definition handleFileChange_resume (batch : Completion (list ReferenceImage))
    (s : AppState) : AppState :=
  match batch with
  | Normal newImages => setReferenceImages (fun prev => prev ++ newImages) s
  | Throw _ => s
  end.

(** [handleRemoveImage]: the filter runs on the stored list, the test on
    the length of the list the handler was rendered with, which is the
    stored one. *)
Definition handleRemoveImage (id0 : string) (s : AppState) : AppState :=
  let s' := setReferenceImages (filter (fun img => negb (id img =? id0))) s in
  if (Z.of_nat (List.length (referenceImages s)) - 1 <? 2)%Z
  then setGeneratedImage None s'
  else s'.

Definition toImagePart (img : ReferenceImage) : ImagePart :=
  {| Types.inlineData := {| data := base64 img; mimeType := type (file img) |} |}.

(** [handleGenerate] up to its [await]: the new state and, when the call
    is made, its arguments. *)
Definition handleGenerate (s : AppState)
  : AppState * option (list ImagePart * AspectRatio) :=
  if (List.length (referenceImages s) <? 2)%nat
  then (setError (Some "Please upload at least 2 images.") s, None)
  else
    let s1 := setGeneratedImage None (setError None (setIsLoading true s)) in
    (s1, Some (map toImagePart (referenceImages s), aspectRatio s)).

(** [handleGenerate] after its [await]: [try], [catch] and [finally]. *)
Definition handleGenerate_resume (outcome : Completion string) (s : AppState) : AppState :=
  let s1 :=
    match outcome with
    | Normal resultBase64 => setGeneratedImage (Some resultBase64) s
    | Throw err =>
        setError (Some match err with
                       | JsError message => message
                       | JsOther => "An unexpected error occurred."
                       end) s
    end in
  setIsLoading false s1.

(** [canGenerate] and the [disabled] attribute of the button. *)
Definition canGenerate (s : AppState) : bool :=
  (2 <=? List.length (referenceImages s))%nat && (List.length (referenceImages s) <=? 4)%nat.

Definition generateDisabled (s : AppState) : bool :=
  negb (canGenerate s) || isLoading s.

(** The result section of the page: one of four panels, chosen by the
    chain [isLoading ? ... : error ? ... : generatedImage ? ... : ...].
    As a condition, [null] and the empty string are false. *)
Inductive Panel : Type :=
| LoadingPanel
| ErrorPanel (message : string)
| ResultPanel (image : string)
| PlaceholderPanel.

Definition resultSection (s : AppState) : Panel :=
  if isLoading s then LoadingPanel
  else
    match error s with
    | Some (String c message) => ErrorPanel (String c message)
    | _ =>
        match generatedImage s with
        | Some (String c image) => ResultPanel (String c image)
        | _ => PlaceholderPanel
        end
    end.

(** The [src] of an image's preview in the grid:
    [`data:${img.file.type};base64,${img.base64}`]. *)
Definition previewSrc (img : ReferenceImage) : string :=
  "data:" ++ type (file img) ++ ";base64," ++ base64 img.

End App.

(** ** The page in use: handlers, awaits in flight and the service *)

Module Session.
Import GenAI Types App GeminiService.

(** The component's state, the promises its handlers are waiting for
    (encodings of accepted batches, generation calls with their
    arguments) and the world of the client. *)
(* The page hands a request to the service during the click; the log of
   the world records it at the event that ends the call, when the call is
   run against the service. *)
Record System : Type :=
  { app : AppState;
    uploads : list (Completion (list ReferenceImage));
    generations : list (list ImagePart * AspectRatio);
    world : World }.

Definition start : System :=
  {| app := initialState; uploads := []; generations := []; world := emptyWorld |}.

Definition pendingList {A : Type} (p : option A) : list A :=
  match p with
  | Some a => [a]
  | None => []
  end.

(** One event of the page.  Positions count from 0: the image whose
    remove button is clicked, the pending encoding or call that ends. *)
Inductive Event : Type :=
| FilesSelected (files : option (list File)) (clock : nat -> N)
| FilesEncoded (k : nat)
| RemoveClicked (k : nat)
| RatioChosen (r : AspectRatio)
| GenerateClicked
| GenerationEnded (k : nat) (ai : Models).

Definition dropNth {A : Type} (k : nat) (l : list A) : list A :=
  firstn k l ++ skipn (S k) l.

Section Steps.
Context `{Engine}.

(** The effect of an event; [None] when the page does not offer it: no
    such image or pending promise, or the generate button disabled. *)
Definition fire (ev : Event) (sys : System) : option System :=
  match ev with
  | FilesSelected files clock =>
      let (app', pending) := handleFileChange files clock (app sys) in
      Some {| app := app';
              uploads := uploads sys ++ pendingList pending;
              generations := generations sys;
              world := world sys |}
  | FilesEncoded k =>
      match nth_error (uploads sys) k with
      | Some batch =>
          Some {| app := handleFileChange_resume batch (app sys);
                  uploads := dropNth k (uploads sys);
                  generations := generations sys;
                  world := world sys |}
      | None => None
      end
  | RemoveClicked k =>
      match nth_error (referenceImages (app sys)) k with
      | Some img =>
          Some {| app := handleRemoveImage (id img) (app sys);
                  uploads := uploads sys;
                  generations := generations sys;
                  world := world sys |}
      | None => None
      end
  | RatioChosen r =>
      Some {| app := setAspectRatio r (app sys);
              uploads := uploads sys;
              generations := generations sys;
              world := world sys |}
  | GenerateClicked =>
      if generateDisabled (app sys) then None
      else
        let (app', call) := handleGenerate (app sys) in
        Some {| app := app';
                uploads := uploads sys;
                generations := generations sys ++ pendingList call;
                world := world sys |}
  | GenerationEnded k ai =>
      match nth_error (generations sys) k with
      | Some (imageParts, ratio) =>
          let (outcome, world') :=
            generateImageFromReferences ai imageParts (ratioToken ratio) (world sys) in
          Some {| app := handleGenerate_resume outcome (app sys);
                  uploads := uploads sys;
                  generations := dropNth k (generations sys);
                  world := world' |}
      | None => None
      end
  end.

(** A sequence of events, from the left. *)
Fixpoint run (evs : list Event) (sys : System) : option System :=
  match evs with
  | [] => Some sys
  | ev :: rest =>
      match fire ev sys with
      | Some sys' => run rest sys'
      | None => None
      end
  end.

Inductive reachable : System -> Prop :=
| reachable_start : reachable start
| reachable_step sys ev sys' :
    reachable sys -> fire ev sys = Some sys' -> reachable sys'.

(** The state a sequence of events leads to from the start (the start
    itself when some event of the sequence is not offered). *)
Definition stateAfter (evs : list Event) : System :=
  match run evs start with
  | Some sys => sys
  | None => start
  end.

End Steps.

(** The two phases of the page.  Idle: no call in flight, and an error
    stored next to a result can only be the message of a refused
    selection.  Generating: one call in flight, the result cleared, and
    no error but that message. *)
Definition idle (sys : System) : Prop :=
  generations sys = []
  /\ isLoading (app sys) = false
  /\ forall e g,
       error (app sys) = Some e -> generatedImage (app sys) = Some g ->
       e = "You can upload a maximum of 4 images.".

Definition generating (sys : System) : Prop :=
  (exists call, generations sys = [call])
  /\ isLoading (app sys) = true
  /\ generatedImage (app sys) = None
  /\ (error (app sys) = None
      \/ error (app sys) = Some "You can upload a maximum of 4 images.").

End Session.

(** ** Sample engines, services and files *)

Module Samples.
Import GenAI Types.

(** The wording of V8. *)
Definition v8 : Engine :=
  {| typeErrorMessage := fun d =>
       match d with
       | IndexOfCandidates => "Cannot read properties of undefined (reading '0')"
       | ContentOfCandidate => "Cannot read properties of undefined (reading 'content')"
       | PartsOfContent => "Cannot read properties of undefined (reading 'parts')"
       | IterateParts => "response.candidates[0].content.parts is not iterable"
       end |}.

Definition answer (ps : list Part) : GenerateContentResponse :=
  {| candidates := Some [ {| content := Some {| parts := Some ps |} |} ] |}.

Definition answering (ps : list Part) : Models := fun _ => Normal (answer ps).

Definition rejecting (e : JsValue) : Models := fun _ => Throw e.

Definition textOnly (t : string) : Part :=
  {| text := Some t; GenAI.inlineData := None |}.

Definition inline (payload mime : string) : Part :=
  {| text := None; GenAI.inlineData := Some {| data := payload; mimeType := mime |} |}.

Definition png (payload : string) : ImagePart :=
  {| Types.inlineData := {| data := payload; mimeType := "image/png" |} |}.

Definition pngFile (fileName payload : string) : File :=
  {| name := fileName;
     type := "image/png";
     dataURL := Some ("data:image/png;base64," ++ payload)%string |}.

(** A clock that does not advance while a batch is mapped. *)
Definition sameInstant : nat -> N := fun _ => 1700000000000%N.

(** Two files of the same name with different bytes (picked from two
    folders), and other files. *)
Definition portraitA : File := pngFile "portrait.png" "AAAA".
Definition portraitB : File := pngFile "portrait.png" "BBBB".
Definition beach : File := pngFile "beach.png" "CCCC".
Definition garden : File := pngFile "garden.png" "DDDD".
Definition street : File := pngFile "street.png" "EEEE".

Definition pictureAnswer : Models := answering [inline "RESULT" "image/png"].

(** Two images, a generation that succeeds, then a selection of three
    more files. *)
Definition oversizedAfterResult : list Session.Event :=
  [ Session.FilesSelected (Some [portraitA; beach]) sameInstant;
    Session.FilesEncoded 0;
    Session.GenerateClicked;
    Session.GenerationEnded 0 pictureAnswer;
    Session.FilesSelected (Some [portraitB; garden; street]) sameInstant ].

(** The three files in one batch, then a generation that succeeds. *)
Definition twinsThenResult : list Session.Event :=
  [ Session.FilesSelected (Some [portraitA; portraitB; beach]) sameInstant;
    Session.FilesEncoded 0;
    Session.GenerateClicked;
    Session.GenerationEnded 0 pictureAnswer ].

(** A service that answers without candidates, as for a blocked prompt. *)
Definition missingCandidates : Models := fun _ => Normal {| candidates := None |}.

(** A file the reader fails on. *)
Definition brokenFile : File :=
  {| name := "broken.png"; type := "image/png"; dataURL := None |}.

(** Two images selected and encoded. *)
Definition twoImagesStored : list Session.Event :=
  [ Session.FilesSelected (Some [portraitA; beach]) sameInstant;
    Session.FilesEncoded 0 ].

(** Stored images with identifiers of their own. *)
Definition stored (f : File) (payload : string) : ReferenceImage :=
  {| id := App.makeId (name f) 1700000000000; file := f; base64 := payload |}.

Definition threeStored : App.AppState :=
  App.setGeneratedImage (Some "RESULT")
    (App.setReferenceImages
       (fun _ => [stored portraitA "AAAA"; stored beach "CCCC"; stored garden "DDDD"])
       App.initialState).

End Samples.

(** * Properties of the generation client *)

Import GenAI Types GeminiService App Session Samples.

Section ClientProperties.
Context `{Engine}.
Variable ai : Models.

(** Outside of [2, 4] the function is its first [throw]. *)
Lemma outside_range imageParts aspectRatio :
  List.length imageParts < 2 \/ 4 < List.length imageParts ->
  generateImageFromReferences ai imageParts aspectRatio
  = raise (JsError "Please provide 2 to 4 reference images.").
Proof.
  intros Hn. unfold generateImageFromReferences.
  destruct (Nat.ltb_spec (List.length imageParts) 2) as [Hlo | Hlo]; [reflexivity |].
  destruct (Nat.ltb_spec 4 (List.length imageParts)) as [Hhi | Hhi]; [reflexivity |].
  lia.
Qed.

(** Inside of [2, 4] it is the [try] with its [catch]. *)
Lemma inside_range imageParts aspectRatio :
  2 <= List.length imageParts <= 4 ->
  generateImageFromReferences ai imageParts aspectRatio
  = catch (tryBlock ai (requestFor imageParts aspectRatio)) catchBlock.
Proof.
  intros [Hlo Hhi]. unfold generateImageFromReferences.
  destruct (Nat.ltb_spec (List.length imageParts) 2); [lia |].
  destruct (Nat.ltb_spec 4 (List.length imageParts)); [lia |].
  reflexivity.
Qed.

(** The [try] block sends its request, once, whatever comes back. *)
Lemma tryBlock_run request w :
  tryBlock ai request w
  = (match ai request with
     | Throw e => Throw e
     | Normal response =>
         match contentParts response with
         | Throw e => Throw e
         | Normal ps =>
             match scanParts ps with
             | Some payload => Normal payload
             | None => Throw (JsError noImageMessage)
             end
         end
     end,
     {| sent := sent w ++ [request]; console := console w |}).
Proof.
  unfold tryBlock, generateContent, completed. cbn.
  destruct (ai request) as [response | e]; [| reflexivity].
  destruct (contentParts response) as [ps | e]; [| reflexivity].
  destruct (scanParts ps); reflexivity.
Qed.

(** The loop skips the parts that are not images. *)
Lemma scanParts_skip before rest :
  Forall (fun q => isImagePart q = false) before ->
  scanParts (before ++ rest) = scanParts rest.
Proof.
  induction 1 as [| q before Hq _ IH]; [reflexivity |].
  cbn. unfold isImagePart in Hq.
  destruct (GenAI.inlineData q) as [blob |]; [rewrite Hq |]; exact IH.
Qed.

Lemma scanParts_none ps :
  Forall (fun q => isImagePart q = false) ps -> scanParts ps = None.
Proof.
  intros Hps. rewrite <- (app_nil_r ps). now rewrite scanParts_skip.
Qed.

(** A list with an image part splits at its first one. *)
Lemma first_image_part ps :
  Exists (fun p => isImagePart p = true) ps ->
  exists before p after,
    ps = before ++ p :: after /\
    Forall (fun q => isImagePart q = false) before /\
    isImagePart p = true.
Proof.
  induction ps as [| q ps IH]; intros Hex.
  - inversion Hex.
  - destruct (isImagePart q) eqn:Hq.
    + exists [], q, ps. repeat split; [constructor | exact Hq].
    + assert (Hrest : Exists (fun p => isImagePart p = true) ps).
      { inversion Hex; subst; [congruence | assumption]. }
      destruct (IH Hrest) as (before & p & after & -> & Hbefore & Hp).
      exists (q :: before), p, after. repeat split; [| exact Hp].
      constructor; assumption.
Qed.

(** Inside of [2, 4]: one request, then the payload, or the inner error
    logged and wrapped. *)
Lemma generate_run imageParts aspectRatio w :
  2 <= List.length imageParts <= 4 ->
  generateImageFromReferences ai imageParts aspectRatio w
  = match fst (tryBlock ai (requestFor imageParts aspectRatio) w) with
    | Normal payload =>
        (Normal payload,
         {| sent := sent w ++ [requestFor imageParts aspectRatio];
            console := console w |})
    | Throw e =>
        (Throw (JsError ("Failed to generate image: "
                         ++ match e with
                            | JsError message => message
                            | JsOther => unknownErrorMessage
                            end)),
         {| sent := sent w ++ [requestFor imageParts aspectRatio];
            console := console w ++ [e] |})
    end.
Proof.
  intros Hn. rewrite (inside_range _ _ Hn).
  cbv beta iota delta [catch Exc_Js]. rewrite tryBlock_run. cbn.
  destruct (ai (requestFor imageParts aspectRatio)) as [response | e]; [| reflexivity].
  destruct (contentParts response) as [ps | e]; [| reflexivity].
  destruct (scanParts ps); reflexivity.
Qed.

(** The [try] block fails in three ways: the call rejects, the response
    lacks the path to its parts, or no part is an image. *)
Lemma tryBlock_failures request w e :
  fst (tryBlock ai request w) = Throw e <->
  ai request = Throw e
  \/ (exists response, ai request = Normal response /\ contentParts response = Throw e)
  \/ (exists response ps,
        ai request = Normal response /\ contentParts response = Normal ps /\
        scanParts ps = None /\ e = JsError noImageMessage).
Proof.
  rewrite tryBlock_run. cbn. split.
  - destruct (ai request) as [response | e0]; [| intros [= ->]; now left].
    destruct (contentParts response) as [ps | e0] eqn:Hps.
    + destruct (scanParts ps) eqn:Hscan; [discriminate |].
      intros [= <-]. right. right. now exists response, ps.
    + intros [= ->]. right. left. now exists response.
  - intros [-> | [(response & -> & ->) | (response & ps & -> & -> & -> & ->)]];
      reflexivity.
Qed.

(** C1: with fewer than 2 or more than 4 images the call fails at once
    with the error "Please provide 2 to 4 reference images."; the world is
    left as it was, so no request reaches the external service. *)
Theorem invalid_count_fails_without_call imageParts aspectRatio w :
  List.length imageParts < 2 \/ 4 < List.length imageParts ->
  generateImageFromReferences ai imageParts aspectRatio w
  = (Throw (JsError "Please provide 2 to 4 reference images."), w).
Proof.
  intros Hn. now rewrite (outside_range _ _ Hn).
Qed.

(** C2: with 2 to 4 images exactly one request is sent; its parts are one
    text part, the instruction, followed by the supplied image payloads
    in their order, and the instruction contains the ratio token. *)
Theorem request_is_instruction_then_images imageParts aspectRatio w :
  2 <= List.length imageParts <= 4 ->
  exists instruction,
    sent (snd (generateImageFromReferences ai imageParts aspectRatio w))
    = sent w ++ [ {| model := "gemini-2.5-flash-image";
                     contents :=
                       {| text := Some instruction; GenAI.inlineData := None |}
                       :: map (fun p => {| text := None;
                                           GenAI.inlineData := Some (Types.inlineData p) |})
                              imageParts;
                     responseModalities := [IMAGE] |} ]
    /\ exists before after, instruction = (before ++ aspectRatio ++ after)%string.
Proof.
  intros Hn. exists (prompt aspectRatio). split.
  - rewrite (generate_run _ _ _ Hn).
    destruct (fst (tryBlock ai (requestFor imageParts aspectRatio) w)); reflexivity.
  - now exists promptHead, promptTail.
Qed.

(** C3: when the parts of the response include a part whose inline data
    declares a media type starting with "image/", the call returns the
    data of the first such part; the parts after it play no role. *)
Theorem first_image_part_is_returned imageParts aspectRatio w response ps :
  2 <= List.length imageParts <= 4 ->
  ai (requestFor imageParts aspectRatio) = Normal response ->
  contentParts response = Normal ps ->
  Exists (fun p => isImagePart p = true) ps ->
  exists before p blob after,
    ps = before ++ p :: after /\
    Forall (fun q => isImagePart q = false) before /\
    GenAI.inlineData p = Some blob /\
    String.prefix "image/" (mimeType blob) = true /\
    generateImageFromReferences ai imageParts aspectRatio w
    = (Normal (data blob),
       {| sent := sent w ++ [requestFor imageParts aspectRatio];
          console := console w |}).
Proof.
  intros Hn Hcall Hparts Hex.
  destruct (first_image_part _ Hex) as (before & p & after & -> & Hbefore & Hp).
  unfold isImagePart in Hp.
  destruct (GenAI.inlineData p) as [blob |] eqn:Hblob; [| discriminate].
  exists before, p, blob, after. repeat split; try assumption.
  rewrite (generate_run _ _ _ Hn), tryBlock_run, Hcall, Hparts.
  rewrite (scanParts_skip _ _ Hbefore). cbn. now rewrite Hblob, Hp.
Qed.


(** C5: when the try block (the call or the processing of its response)
    fails with an error [e], the function throws one error whose message
    is "Failed to generate image: " followed by the message of [e] if [e]
    is an Error and by the unknown-error text otherwise; the request was
    sent once and is not sent again. *)
Theorem failure_is_wrapped_once imageParts aspectRatio w e :
  2 <= List.length imageParts <= 4 ->
  fst (tryBlock ai (requestFor imageParts aspectRatio) w) = Throw e ->
  generateImageFromReferences ai imageParts aspectRatio w
  = (Throw (JsError ("Failed to generate image: "
                     ++ match e with
                        | JsError message => message
                        | JsOther => "An unknown error occurred during image generation."
                        end)),
     {| sent := sent w ++ [requestFor imageParts aspectRatio];
        console := console w ++ [e] |}).
Proof.
  intros Hn Hfail. now rewrite (generate_run _ _ _ Hn), Hfail.
Qed.

(** C10: the error of the count test leaves the function as it is, with
    the message "Please provide 2 to 4 reference images." and nothing
    logged; the error for a response without image part passes through
    the catch block and comes out with the prefix. *)
Theorem validation_unwrapped_no_image_wrapped :
  (forall imageParts aspectRatio w,
      List.length imageParts < 2 \/ 4 < List.length imageParts ->
      generateImageFromReferences ai imageParts aspectRatio w
      = (Throw (JsError "Please provide 2 to 4 reference images."), w))
  /\ String.prefix "Failed to generate image: "
                   "Please provide 2 to 4 reference images." = false
  /\ (forall imageParts aspectRatio w response ps,
        2 <= List.length imageParts <= 4 ->
        ai (requestFor imageParts aspectRatio) = Normal response ->
        contentParts response = Normal ps ->
        Forall (fun p => isImagePart p = false) ps ->
        fst (generateImageFromReferences ai imageParts aspectRatio w)
        = Throw (JsError "Failed to generate image: No image was generated. The model may have refused the request due to safety policies.")).
Proof.
  split; [| split].
  - intros imageParts aspectRatio w Hn. now rewrite (outside_range _ _ Hn).
  - reflexivity.
  - intros imageParts aspectRatio w response ps Hn Hcall Hparts Hnone.
    rewrite (generate_run _ _ _ Hn), tryBlock_run, Hcall, Hparts.
    now rewrite (scanParts_none _ Hnone).
Qed.

End ClientProperties.

(** * Witnesses for the client's properties *)

Lemma invalid_count_fails_without_call_witness :
  (List.length [png "AAAA"] < 2 \/ 4 < List.length [png "AAAA"]) /\
  generateImageFromReferences (H := v8) pictureAnswer [png "AAAA"] "1:1" emptyWorld
  = (Throw (JsError "Please provide 2 to 4 reference images."), emptyWorld).
Proof.
  assert (Hn : List.length [png "AAAA"] < 2 \/ 4 < List.length [png "AAAA"])
    by (left; cbn; lia).
  split; [exact Hn |].
  exact (@invalid_count_fails_without_call v8 pictureAnswer [png "AAAA"] "1:1" emptyWorld Hn).
Defined.

Lemma request_is_instruction_then_images_witness :
  2 <= List.length [png "AAAA"; png "BBBB"] <= 4 /\
  exists instruction,
    sent (snd (generateImageFromReferences (H := v8) pictureAnswer
                 [png "AAAA"; png "BBBB"] "16:9" emptyWorld))
    = sent emptyWorld
      ++ [ {| model := "gemini-2.5-flash-image";
              contents :=
                {| text := Some instruction; GenAI.inlineData := None |}
                :: map (fun p => {| text := None;
                                    GenAI.inlineData := Some (Types.inlineData p) |})
                       [png "AAAA"; png "BBBB"];
              responseModalities := [IMAGE] |} ]
    /\ exists before after, instruction = (before ++ "16:9" ++ after)%string.
Proof.
  assert (Hn : 2 <= List.length [png "AAAA"; png "BBBB"] <= 4) by (cbn; lia).
  split; [exact Hn |].
  exact (@request_is_instruction_then_images v8 pictureAnswer
           [png "AAAA"; png "BBBB"] "16:9" emptyWorld Hn).
Defined.

Lemma first_image_part_is_returned_witness :
  let ps := [textOnly "Here it is."; inline "notes" "text/plain";
             inline "FIRST" "image/png"; inline "SECOND" "image/jpeg"] in
  2 <= List.length [png "AAAA"; png "BBBB"] <= 4 /\
  Exists (fun p => isImagePart p = true) ps /\
  exists before p blob after,
    ps = before ++ p :: after /\
    Forall (fun q => isImagePart q = false) before /\
    GenAI.inlineData p = Some blob /\
    String.prefix "image/" (mimeType blob) = true /\
    generateImageFromReferences (H := v8) (answering ps)
      [png "AAAA"; png "BBBB"] "1:1" emptyWorld
    = (Normal (data blob),
       {| sent := sent emptyWorld ++ [requestFor [png "AAAA"; png "BBBB"] "1:1"];
          console := console emptyWorld |}).
Proof.
  intros ps.
  assert (Hn : 2 <= List.length [png "AAAA"; png "BBBB"] <= 4) by (cbn; lia).
  assert (Hex : Exists (fun p => isImagePart p = true) ps).
  { unfold ps. do 2 apply Exists_cons_tl. apply Exists_cons_hd. reflexivity. }
  split; [exact Hn |]. split; [exact Hex |].
  exact (@first_image_part_is_returned v8 (answering ps)
           [png "AAAA"; png "BBBB"] "1:1" emptyWorld (answer ps) ps
           Hn eq_refl eq_refl Hex).
Defined.



Lemma failure_is_wrapped_once_witness :
  2 <= List.length [png "AAAA"; png "BBBB"] <= 4 /\
  fst (tryBlock (H := v8) (rejecting (JsError "fetch failed"))
         (requestFor [png "AAAA"; png "BBBB"] "9:16") emptyWorld)
  = Throw (JsError "fetch failed") /\
  generateImageFromReferences (H := v8) (rejecting (JsError "fetch failed"))
    [png "AAAA"; png "BBBB"] "9:16" emptyWorld
  = (Throw (JsError "Failed to generate image: fetch failed"),
     {| sent := sent emptyWorld ++ [requestFor [png "AAAA"; png "BBBB"] "9:16"];
        console := console emptyWorld ++ [JsError "fetch failed"] |}).
Proof.
  assert (Hn : 2 <= List.length [png "AAAA"; png "BBBB"] <= 4) by (cbn; lia).
  split; [exact Hn |]. split; [reflexivity |].
  exact (@failure_is_wrapped_once v8 (rejecting (JsError "fetch failed"))
           [png "AAAA"; png "BBBB"] "9:16" emptyWorld (JsError "fetch failed")
           Hn eq_refl).
Defined.

Lemma validation_unwrapped_no_image_wrapped_witness :
  generateImageFromReferences (H := v8) (answering [textOnly "No."])
    [png "AAAA"] "1:1" emptyWorld
  = (Throw (JsError "Please provide 2 to 4 reference images."), emptyWorld)
  /\ fst (generateImageFromReferences (H := v8) (answering [textOnly "No."])
            [png "AAAA"; png "BBBB"] "1:1" emptyWorld)
     = Throw (JsError "Failed to generate image: No image was generated. The model may have refused the request due to safety policies.").
Proof.
  destruct (@validation_unwrapped_no_image_wrapped v8 (answering [textOnly "No."]))
    as (Hout & _ & Hin).
  split.
  - apply Hout. left. cbn. lia.
  - apply (Hin _ _ _ (answer [textOnly "No."]) [textOnly "No."]).
    + cbn. lia.
    + reflexivity.
    + reflexivity.
    + repeat constructor.
Defined.

(** * Properties of the form *)

Section FormProperties.
Context `{Engine}.

Lemma run_reachable evs : forall sys sys',
  reachable sys -> run evs sys = Some sys' -> reachable sys'.
Proof.
  induction evs as [| ev evs IH]; intros sys sys' Hsys Hrun; cbn in Hrun.
  - now injection Hrun as <-.
  - destruct (fire ev sys) as [sys1 |] eqn:Hfire; [| discriminate].
    apply (IH sys1); [| exact Hrun].
    now apply (reachable_step sys ev).
Qed.

Lemma stateAfter_reachable evs : reachable (stateAfter evs).
Proof.
  unfold stateAfter. destruct (run evs start) as [sys |] eqn:Hrun.
  - apply (run_reachable evs start); [constructor | exact Hrun].
  - constructor.
Qed.

(** A selection touches the error only. *)
Lemma handleFileChange_state files clock s :
  let s' := fst (handleFileChange files clock s) in
  generatedImage s' = generatedImage s
  /\ isLoading s' = isLoading s
  /\ (error s' = error s
      \/ error s' = None
      \/ error s' = Some "You can upload a maximum of 4 images.").
Proof.
  unfold handleFileChange. destruct files as [fs |].
  - destruct (4 <? List.length (referenceImages s) + List.length fs)%nat; cbn; auto.
  - cbn. auto.
Qed.

Lemma handleRemoveImage_state id0 s :
  let s' := handleRemoveImage id0 s in
  error s' = error s
  /\ isLoading s' = isLoading s
  /\ (generatedImage s' = generatedImage s \/ generatedImage s' = None).
Proof.
  unfold handleRemoveImage.
  destruct (Z.of_nat (List.length (referenceImages s)) - 1 <? 2)%Z; cbn; auto.
Qed.

Lemma nth_error_singleton {A : Type} (a b : A) k :
  nth_error [a] k = Some b -> k = 0 /\ b = a.
Proof.
  destruct k as [| k]; cbn.
  - now intros [= <-].
  - destruct k; discriminate.
Qed.

(** Every event leads from a phase to a phase. *)
Lemma fire_phases ev sys sys' :
  idle sys \/ generating sys -> fire ev sys = Some sys' ->
  idle sys' \/ generating sys'.
Proof.
  intros Hphase Hfire. destruct ev as [files clock | k | k | r | | k ai]; cbn in Hfire.
  - (* a selection *)
    pose proof (handleFileChange_state files clock (app sys)) as (Hg & Hl & He).
    destruct (handleFileChange files clock (app sys)) as [app' pending].
    injection Hfire as <-. cbn in Hg, Hl, He.
    destruct Hphase as [(Hgen & Hload & Hboth) | (Hgen & Hload & Hnone & Herr)].
    + left. repeat split; cbn; [exact Hgen | congruence |].
      intros e g He' Hg'. rewrite Hg in Hg'.
      destruct He as [He | [He | He]]; [| congruence | congruence].
      rewrite He in He'. now apply (Hboth e g).
    + right. repeat split; cbn; [exact Hgen | congruence | congruence |].
      destruct He as [He | [He | He]]; [rewrite He; exact Herr | now left | now right].
  - (* an encoding ends *)
    destruct (nth_error (uploads sys) k) as [batch |]; [| discriminate].
    injection Hfire as <-.
    assert (Hsame : generatedImage (handleFileChange_resume batch (app sys)) = generatedImage (app sys)
                    /\ isLoading (handleFileChange_resume batch (app sys)) = isLoading (app sys)
                    /\ error (handleFileChange_resume batch (app sys)) = error (app sys))
      by (destruct batch; cbn; auto).
    destruct Hsame as (Hg & Hl & He).
    destruct Hphase as [(Hgen & Hload & Hboth) | (Hgen & Hload & Hnone & Herr)].
    + left. repeat split; cbn; [exact Hgen | congruence |].
      intros e g. rewrite He, Hg. apply Hboth.
    + right. repeat split; cbn; [exact Hgen | congruence | congruence |].
      rewrite He. exact Herr.
  - (* a removal *)
    destruct (nth_error (referenceImages (app sys)) k) as [img |]; [| discriminate].
    injection Hfire as <-.
    pose proof (handleRemoveImage_state (id img) (app sys)) as (He & Hl & Hg).
    cbn in He, Hl, Hg.
    destruct Hphase as [(Hgen & Hload & Hboth) | (Hgen & Hload & Hnone & Herr)].
    + left. repeat split; cbn; [exact Hgen | congruence |].
      intros e g He' Hg'. rewrite He in He'.
      destruct Hg as [Hg | Hg]; [| congruence].
      rewrite Hg in Hg'. now apply (Hboth e g).
    + right. repeat split; cbn; [exact Hgen | congruence | | rewrite He; exact Herr].
      destruct Hg as [Hg | Hg]; congruence.
  - (* a choice of ratio *)
    injection Hfire as <-.
    destruct Hphase as [(Hgen & Hload & Hboth) | (Hgen & Hload & Hnone & Herr)].
    + left. repeat split; cbn; assumption.
    + right. repeat split; cbn; assumption.
  - (* a click on generate *)
    destruct (generateDisabled (app sys)) eqn:Hdis; [discriminate |].
    unfold generateDisabled in Hdis. apply orb_false_elim in Hdis as [Hcan Hload].
    apply negb_false_iff in Hcan. unfold canGenerate in Hcan.
    apply andb_prop in Hcan as [Hlo _]. apply Nat.leb_le in Hlo.
    unfold handleGenerate in Hfire.
    destruct (Nat.ltb_spec (List.length (referenceImages (app sys))) 2); [lia |].
    injection Hfire as <-.
    destruct Hphase as [(Hgen & _ & _) | (_ & Hload' & _)]; [| congruence].
    right. repeat split; cbn; [| now left].
    rewrite Hgen. now eexists.
  - (* a call ends *)
    destruct (nth_error (generations sys) k) as [[imageParts ratio] |] eqn:Hk;
      [| discriminate].
    destruct (generateImageFromReferences ai imageParts (ratioToken ratio) (world sys))
      as [outcome world'].
    injection Hfire as <-.
    destruct Hphase as [(Hgen & _ & _) | ((call & Hgen) & Hload & Hnone & Herr)].
    + rewrite Hgen in Hk. destruct k; discriminate.
    + rewrite Hgen in Hk. apply nth_error_singleton in Hk as [-> _].
      left. repeat split; cbn.
      * now rewrite Hgen.
      * intros e g. destruct outcome as [resultBase64 | err]; cbn.
        -- intros He _. destruct Herr as [Herr | Herr]; congruence.
        -- congruence.
Qed.

Lemma reachable_phases sys : reachable sys -> idle sys \/ generating sys.
Proof.
  induction 1 as [| sys ev sys' _ IH Hfire].
  - left. repeat split; cbn; congruence.
  - exact (fire_phases ev sys sys' IH Hfire).
Qed.

(** When at most one stored image carries the identifier, a removal
    that leaves fewer than 2 images clears the result. *)
Lemma removal_clears_result_for_single_id id0 s :
  List.length (filter (fun img => id img =? id0) (referenceImages s)) <= 1 ->
  List.length (referenceImages (handleRemoveImage id0 s)) < 2 ->
  generatedImage (handleRemoveImage id0 s) = None.
Proof.
  intros Hone Hleft.
  pose proof (filter_length (fun img => id img =? id0) (referenceImages s)) as Hsum.
  unfold handleRemoveImage in *.
  destruct (Z.ltb_spec (Z.of_nat (List.length (referenceImages s)) - 1) 2) as [Hlt | Hge];
    [reflexivity |].
  cbn in Hleft. lia.
Qed.

(** The digits of a number hold no dash. *)
Lemma digits_no_dash d x y :
  NilEmpty.string_of_uint d <> (x ++ String "-"%char y)%string.
Proof.
  revert x. induction d; intros x Heq; destruct x; cbn in Heq;
    try discriminate; injection Heq as _ Heq; exact (IHd x Heq).
Qed.

Lemma numberToString_no_dash n x y :
  numberToString n <> (x ++ String "-"%char y)%string.
Proof.
  unfold numberToString, NilZero.string_of_uint.
  destruct (N.to_uint n) eqn:Hd; try (rewrite <- Hd; apply digits_no_dash);
    try apply digits_no_dash.
  intros Heq. destruct x as [| c x]; cbn in Heq; [discriminate |].
  injection Heq as _ Heq. destruct x; discriminate.
Qed.

Lemma numberToString_inj n m : numberToString n = numberToString m -> n = m.
Proof.
  unfold numberToString. intros Heq.
  assert (Hnonnil : forall k, N.to_uint k <> Decimal.Nil).
  { intros [| p]; [discriminate | apply DecimalPos.Unsigned.to_uint_nonnil]. }
  pose proof (NilZero.usu _ (Hnonnil n)) as Hn.
  pose proof (NilZero.usu _ (Hnonnil m)) as Hm.
  rewrite Heq, Hm in Hn. injection Hn as Hn.
  now apply DecimalN.Unsigned.to_uint_inj.
Qed.

(** Two identifiers are equal exactly when the file names and the clock
    readings are. *)
Lemma makeId_inj name1 now1 name2 now2 :
  makeId name1 now1 = makeId name2 now2 <-> name1 = name2 /\ now1 = now2.
Proof.
  split; [| now intros [-> ->]].
  unfold makeId. revert name2.
  induction name1 as [| c name1 IH]; intros [| c' name2] Heq; cbn in Heq.
  - injection Heq as Heq. split; [reflexivity | now apply numberToString_inj].
  - injection Heq as _ Heq. now apply numberToString_no_dash in Heq.
  - injection Heq as _ Heq. symmetry in Heq. now apply numberToString_no_dash in Heq.
  - injection Heq as -> Heq. destruct (IH name2 Heq) as [-> ->]. now split.
Qed.

(** C7: a batch that would bring the count above 4 is refused in full:
    the handler sets the error and returns, the stored images are those
    of before and no encoding is started, so nothing is added. *)
Theorem oversized_batch_is_refused_in_full s files clock :
  4 < List.length (referenceImages s) + List.length files ->
  error (fst (handleFileChange (Some files) clock s))
  = Some "You can upload a maximum of 4 images."
  /\ referenceImages (fst (handleFileChange (Some files) clock s)) = referenceImages s
  /\ snd (handleFileChange (Some files) clock s) = None.
Proof.
  intros Hover. unfold handleFileChange.
  destruct (Nat.ltb_spec 4 (List.length (referenceImages s) + List.length files));
    [| lia].
  repeat split.
Qed.

(** C8 (as amended): in every reachable state, an error stored together
    with a generated image is the message of a refused selection, "You
    can upload a maximum of 4 images.", and the page then shows the error
    panel, not the result. *)
Theorem stored_error_with_result_is_upload_limit sys e g :
  reachable sys ->
  error (app sys) = Some e ->
  generatedImage (app sys) = Some g ->
  e = "You can upload a maximum of 4 images."
  /\ resultSection (app sys) = ErrorPanel e.
Proof.
  intros Hreach He Hg.
  destruct (reachable_phases sys Hreach) as [(_ & Hload & Hboth) | (_ & _ & Hnone & _)];
    [| congruence].
  pose proof (Hboth e g He Hg) as ->. split; [reflexivity |].
  unfold resultSection. now rewrite Hload, He.
Qed.

End FormProperties.

(** * The form on concrete sessions *)

(** C6 (the code departs from it): three files are selected at once, two
    of them of the same name, and a result is generated; a click on the
    remove button of the first image removes both images of that
    identifier, one image is left, and the result stays. *)
Theorem removing_a_twin_keeps_the_result :
  run (H := v8) twinsThenResult start = Some (stateAfter (H := v8) twinsThenResult)
  /\ reachable (H := v8) (stateAfter (H := v8) twinsThenResult)
  /\ List.length (referenceImages (app (stateAfter (H := v8) twinsThenResult))) = 3
  /\ generatedImage (app (stateAfter (H := v8) twinsThenResult)) = Some "RESULT"
  /\ exists sys',
       fire (H := v8) (RemoveClicked 0) (stateAfter (H := v8) twinsThenResult) = Some sys'
       /\ List.length (referenceImages (app sys')) = 1
       /\ generatedImage (app sys') = Some "RESULT".
Proof.
  split; [reflexivity |]. split; [apply stateAfter_reachable |].
  split; [reflexivity |]. split; [reflexivity |].
  eexists. split; [reflexivity |]. split; reflexivity.
Qed.

(** C8 (the claim fails): after a result is generated, a refused
    selection stores an error next to the result. *)
Lemma error_and_result_stored_together :
  run (H := v8) oversizedAfterResult start
  = Some (stateAfter (H := v8) oversizedAfterResult)
  /\ reachable (H := v8) (stateAfter (H := v8) oversizedAfterResult)
  /\ error (app (stateAfter (H := v8) oversizedAfterResult))
     = Some "You can upload a maximum of 4 images."
  /\ generatedImage (app (stateAfter (H := v8) oversizedAfterResult)) = Some "RESULT".
Proof.
  split; [reflexivity |]. split; [apply stateAfter_reachable |]. split; reflexivity.
Qed.

(** C9 (the code departs from it): two different files of the same name,
    selected in one batch and mapped at the same clock reading, get the
    same identifier. *)
Theorem same_name_same_instant_same_id :
  portraitA <> portraitB
  /\ exists imgA imgB,
       snd (handleFileChange (Some [portraitA; portraitB]) sameInstant initialState)
       = Some (Normal [imgA; imgB])
       /\ file imgA = portraitA
       /\ file imgB = portraitB
       /\ id imgA = id imgB.
Proof.
  split; [discriminate |].
  do 2 eexists. split; [reflexivity |]. repeat split.
Qed.

(** * Witnesses for the form's properties *)

Lemma oversized_batch_is_refused_in_full_witness :
  let s := app (stateAfter (H := v8) twinsThenResult) in
  let files := [portraitA; beach] in
  4 < List.length (referenceImages s) + List.length files
  /\ error (fst (handleFileChange (Some files) sameInstant s))
     = Some "You can upload a maximum of 4 images."
  /\ referenceImages (fst (handleFileChange (Some files) sameInstant s)) = referenceImages s
  /\ snd (handleFileChange (Some files) sameInstant s) = None.
Proof.
  intros s files.
  assert (Hover : 4 < List.length (referenceImages s) + List.length files)
    by (vm_compute; lia).
  split; [exact Hover |].
  exact (oversized_batch_is_refused_in_full s files sameInstant Hover).
Defined.

Lemma stored_error_with_result_is_upload_limit_witness :
  let sys := stateAfter (H := v8) oversizedAfterResult in
  reachable (H := v8) sys
  /\ error (app sys) = Some "You can upload a maximum of 4 images."
  /\ generatedImage (app sys) = Some "RESULT"
  /\ "You can upload a maximum of 4 images." = "You can upload a maximum of 4 images."
  /\ resultSection (app sys) = ErrorPanel "You can upload a maximum of 4 images.".
Proof.
  intros sys.
  assert (Hreach : reachable (H := v8) sys) by apply stateAfter_reachable.
  assert (He : error (app sys) = Some "You can upload a maximum of 4 images.")
    by reflexivity.
  assert (Hg : generatedImage (app sys) = Some "RESULT") by reflexivity.
  split; [exact Hreach |]. split; [exact He |]. split; [exact Hg |].
  exact (@stored_error_with_result_is_upload_limit v8 sys _ _ Hreach He Hg).
Defined.

(** * Further properties of the generation client *)

Section ClientEdges.
Context `{Engine}.

Lemma prefix_app p s : String.prefix p (p ++ s) = true.
Proof.
  induction p as [| c p IH]; cbn.
  - now destruct s.
  - destruct (ascii_dec c c); [exact IH | congruence].
Qed.

Lemma count_cases (n : nat) : (n < 2 \/ 4 < n) \/ 2 <= n <= 4.
Proof. lia. Qed.

(** X1: a response without [candidates], with an empty list of candidates,
    with a first candidate without [content] or with a content without
    [parts] makes the call fail with the engine's TypeError message behind
    the prefix; the request was sent once and the TypeError is logged. *)
Theorem malformed_response_is_wrapped (ai : Models) imageParts aspectRatio w response :
  2 <= List.length imageParts <= 4 ->
  ai (requestFor imageParts aspectRatio) = Normal response ->
  (candidates response = None
   \/ candidates response = Some []
   \/ exists candidate others,
        candidates response = Some (candidate :: others)
        /\ (content candidate = None
            \/ content candidate = Some {| parts := None |})) ->
  exists site,
    generateImageFromReferences ai imageParts aspectRatio w
    = (Throw (JsError ("Failed to generate image: " ++ typeErrorMessage site)),
       {| sent := sent w ++ [requestFor imageParts aspectRatio];
          console := console w ++ [JsError (typeErrorMessage site)] |}).
Proof.
  intros Hn Hcall Hshape.
  rewrite (generate_run _ _ _ _ Hn), tryBlock_run, Hcall.
  unfold contentParts.
  destruct Hshape as [-> | [-> | (candidate & others & -> & [-> | ->])]].
  - now exists IndexOfCandidates.
  - now exists ContentOfCandidate.
  - now exists PartsOfContent.
  - now exists IterateParts.
Qed.

(** X2: only the first candidate of a response is read: two services whose
    answers agree on the first candidate give the same run, whatever the
    other candidates hold. *)
Theorem only_first_candidate_is_read (ai1 ai2 : Models) imageParts aspectRatio w
    candidate others1 others2 :
  ai1 (requestFor imageParts aspectRatio)
  = Normal {| candidates := Some (candidate :: others1) |} ->
  ai2 (requestFor imageParts aspectRatio)
  = Normal {| candidates := Some (candidate :: others2) |} ->
  generateImageFromReferences ai1 imageParts aspectRatio w
  = generateImageFromReferences ai2 imageParts aspectRatio w.
Proof.
  intros H1 H2.
  destruct (count_cases (List.length imageParts)) as [Hout | Hin].
  - now rewrite !(outside_range _ _ _ Hout).
  - rewrite !(generate_run _ _ _ _ Hin), !tryBlock_run, H1, H2. reflexivity.
Qed.

(** X3: whatever the service does, what the function throws is an Error:
    the one of the count test, or one whose message starts with "Failed to
    generate image: ". *)
Theorem thrown_value_is_a_labelled_error (ai : Models) imageParts aspectRatio w e :
  fst (generateImageFromReferences ai imageParts aspectRatio w) = Throw e ->
  exists message,
    e = JsError message
    /\ (message = "Please provide 2 to 4 reference images."
        \/ String.prefix "Failed to generate image: " message = true).
Proof.
  destruct (count_cases (List.length imageParts)) as [Hout | Hin].
  - rewrite (outside_range _ _ _ Hout). cbn. intros [= <-].
    eexists. split; [reflexivity | now left].
  - rewrite (generate_run _ _ _ _ Hin).
    destruct (fst (tryBlock ai (requestFor imageParts aspectRatio) w)) as [payload | inner];
      cbn; [discriminate |].
    intros [= <-]. eexists. split; [reflexivity | right].
    exact (prefix_app "Failed to generate image: " _).
Qed.

(** X4: a payload comes back only from the service: when the call returns,
    the count was in [2, 4], the request was sent once, nothing was logged,
    and the payload is the data of a part of the first candidate whose
    media type starts with "image/". *)
Theorem returned_payload_is_an_image_part (ai : Models) imageParts aspectRatio w payload w' :
  generateImageFromReferences ai imageParts aspectRatio w = (Normal payload, w') ->
  2 <= List.length imageParts <= 4
  /\ w' = {| sent := sent w ++ [requestFor imageParts aspectRatio];
             console := console w |}
  /\ exists response ps part blob,
       ai (requestFor imageParts aspectRatio) = Normal response
       /\ contentParts response = Normal ps
       /\ In part ps
       /\ GenAI.inlineData part = Some blob
       /\ String.prefix "image/" (mimeType blob) = true
       /\ payload = data blob.
Proof.
  destruct (count_cases (List.length imageParts)) as [Hout | Hin].
  - rewrite (outside_range _ _ _ Hout). cbn. discriminate.
  - rewrite (generate_run _ _ _ _ Hin), tryBlock_run. cbn.
    destruct (ai (requestFor imageParts aspectRatio)) as [response | e0] eqn:Hcall;
      [| discriminate].
    destruct (contentParts response) as [ps | e0] eqn:Hparts; [| discriminate].
    destruct (scanParts ps) as [found |] eqn:Hscan; [| discriminate].
    intros [= <- <-]. split; [exact Hin |]. split; [reflexivity |].
    exists response, ps.
    assert (Hfound : exists part blob,
               In part ps /\ GenAI.inlineData part = Some blob
               /\ String.prefix "image/" (mimeType blob) = true /\ found = data blob).
    { clear -Hscan. induction ps as [| q ps IH]; cbn in Hscan; [discriminate |].
      destruct (GenAI.inlineData q) as [blob |] eqn:Hq.
      - destruct (String.prefix "image/" (mimeType blob)) eqn:Hp.
        + injection Hscan as <-. exists q, blob. cbn. auto.
        + destruct (IH Hscan) as (part & b & Hin & Hrest). exists part, b. cbn. auto.
      - destruct (IH Hscan) as (part & b & Hin & Hrest). exists part, b. cbn. auto. }
    destruct Hfound as (part & blob & Hin' & Hblob & Hp & ->).
    exists part, blob. repeat split; assumption || reflexivity.
Qed.

End ClientEdges.

(** * Further properties of the form's handlers *)

Section HandlerEdges.

Lemma chars_app a b :
  list_ascii_of_string (a ++ b) = list_ascii_of_string a ++ list_ascii_of_string b.
Proof.
  induction a as [| c a IH]; cbn; [reflexivity | now rewrite IH].
Qed.

Lemma string_app_assoc (a b c : string) : ((a ++ b) ++ c = a ++ (b ++ c))%string.
Proof.
  induction a as [| x a IH]; cbn; [reflexivity | now rewrite IH].
Qed.

(** A string without the separator is one field. *)
Lemma split_one_field sep s :
  ~ In sep (list_ascii_of_string s) -> split sep s = [s].
Proof.
  induction s as [| c s IH]; cbn; intros Hfree; [reflexivity |].
  destruct (Ascii.eqb_spec c sep) as [-> | _]; [tauto |].
  rewrite IH; [reflexivity | tauto].
Qed.

(** The first separator ends the first field. *)
Lemma split_first_field sep a b :
  ~ In sep (list_ascii_of_string a) ->
  split sep (a ++ String sep b) = a :: split sep b.
Proof.
  induction a as [| c a IH]; cbn; intros Hfree.
  - now rewrite Ascii.eqb_refl.
  - destruct (Ascii.eqb_spec c sep) as [-> | _]; [tauto |].
    rewrite IH; [reflexivity | tauto].
Qed.

(** [fileToBase64] on a reader result [header,payload]. *)
Lemma fileToBase64_strips_header f header payload :
  ~ In ","%char (list_ascii_of_string header) ->
  ~ In ","%char (list_ascii_of_string payload) ->
  dataURL f = Some (header ++ String ","%char payload)%string ->
  fileToBase64 f = Normal payload.
Proof.
  intros Hheader Hpayload Hurl. unfold fileToBase64. rewrite Hurl.
  rewrite (split_first_field _ _ _ Hheader), (split_one_field _ _ Hpayload).
  reflexivity.
Qed.

(** A fulfilled batch holds one image per file, in order, the [j]-th with
    the identifier made at the clock's [j]-th reading. *)
Lemma batch_shape clock files : forall k newImages,
  promiseAll (mapFiles clock k files) = Normal newImages ->
  map file newImages = files
  /\ forall j img, nth_error newImages j = Some img ->
                   id img = makeId (name (file img)) (clock (k + j)).
Proof.
  induction files as [| f files IH]; intros k imgs Hall; cbn in Hall.
  - injection Hall as <-. split; [reflexivity |]. intros [| j] img; discriminate.
  - unfold newImage in Hall. destruct (fileToBase64 f) as [encoded | e]; [| discriminate].
    destruct (promiseAll (mapFiles clock (S k) files)) as [rest | e] eqn:Hrest;
      [| discriminate].
    injection Hall as <-. destruct (IH (S k) rest Hrest) as [Hfiles Hids].
    split; [cbn; now rewrite Hfiles |].
    intros [| j] img Hj; cbn in Hj.
    + injection Hj as <-. cbn. now rewrite Nat.add_0_r.
    + rewrite (Hids j img Hj). f_equal. f_equal. lia.
Qed.

(** A batch of readable files is fulfilled. *)
Lemma readable_batch clock files : forall k,
  Forall (fun f => dataURL f <> None) files ->
  exists newImages, promiseAll (mapFiles clock k files) = Normal newImages.
Proof.
  induction files as [| f files IH]; intros k Hread; [now exists [] |].
  inversion Hread as [| ? ? Hf Hrest]; subst.
  destruct (IH (S k) Hrest) as (imgs & Hall).
  cbn. unfold newImage, fileToBase64.
  destruct (dataURL f) as [result |]; [| congruence].
  rewrite Hall. now eexists.
Qed.

(** A batch with an unreadable file is rejected with the reader's event. *)
Lemma unreadable_batch clock files : forall k,
  Exists (fun f => dataURL f = None) files ->
  promiseAll (mapFiles clock k files) = Throw JsOther.
Proof.
  induction files as [| f files IH]; intros k Hex; [inversion Hex |].
  cbn. unfold newImage, fileToBase64.
  destruct (dataURL f) as [result |] eqn:Hf; [| reflexivity].
  rewrite IH; [reflexivity |].
  inversion Hex; subst; [congruence | assumption].
Qed.

(** X5: for a file whose reader result is [data:<type>;base64,<payload>],
    the stored encoding is the payload and the preview shown in the grid
    is the reader's data URL again. *)
Theorem preview_reproduces_the_data_url f now payload :
  ~ In ","%char (list_ascii_of_string (type f)) ->
  ~ In ","%char (list_ascii_of_string payload) ->
  dataURL f = Some ("data:" ++ type f ++ ";base64," ++ payload)%string ->
  exists img,
    newImage f now = Normal img
    /\ file img = f
    /\ base64 img = payload
    /\ dataURL f = Some (previewSrc img).
Proof.
  intros Htype Hpayload Hurl.
  assert (Hstrip : fileToBase64 f = Normal payload).
  { apply (fileToBase64_strips_header f ("data:" ++ type f ++ ";base64")%string).
    - change ("data:" ++ type f ++ ";base64")%string
        with ("data:" ++ (type f ++ ";base64"))%string.
      rewrite !chars_app, !in_app_iff. cbn.
      intros [Hin | [Hin | Hin]]; [| tauto |];
        repeat (destruct Hin as [Hin | Hin]; [discriminate |]); exact Hin.
    - exact Hpayload.
    - rewrite Hurl. f_equal.
      change ";base64,"%string with (";base64" ++ String ","%char "")%string.
      now rewrite !string_app_assoc. }
  unfold newImage. rewrite Hstrip. eexists. split; [reflexivity |].
  repeat split. exact Hurl.
Qed.

(** X7: when one file of an accepted batch cannot be read, no image of the
    batch is added, and no error is stored either: the selection has
    cleared the error and the rejection is not caught. *)
Theorem unreadable_file_drops_the_batch_silently s files clock :
  List.length (referenceImages s) + List.length files <= 4 ->
  Exists (fun f => dataURL f = None) files ->
  exists rejection,
    snd (handleFileChange (Some files) clock s) = Some (Throw rejection)
    /\ referenceImages
         (handleFileChange_resume (Throw rejection)
            (fst (handleFileChange (Some files) clock s)))
       = referenceImages s
    /\ error
         (handleFileChange_resume (Throw rejection)
            (fst (handleFileChange (Some files) clock s)))
       = None.
Proof.
  intros Hfit Hbad. unfold handleFileChange.
  destruct (Nat.ltb_spec 4 (List.length (referenceImages s) + List.length files));
    [lia |].
  exists JsOther. cbn. rewrite (unreadable_batch clock files 0 Hbad). repeat split.
Qed.

(** X8: the identifiers of a batch are pairwise distinct as soon as any two
    of its files differ in name or were mapped at different clock
    readings. *)
Theorem batch_ids_are_distinct s files clock newImages :
  (forall i j fi fj,
      i <> j -> nth_error files i = Some fi -> nth_error files j = Some fj ->
      name fi <> name fj \/ clock i <> clock j) ->
  snd (handleFileChange (Some files) clock s) = Some (Normal newImages) ->
  NoDup (map id newImages).
Proof.
  intros Hdiff Hbatch. unfold handleFileChange in Hbatch.
  destruct (4 <? List.length (referenceImages s) + List.length files)%nat;
    [discriminate |].
  cbn in Hbatch. injection Hbatch as Hall.
  pose proof (batch_shape clock files 0 newImages Hall) as Hshape.
  destruct Hshape as [Hfiles Hids].
  apply NoDup_nth_error. intros i j Hi Heq.
  rewrite length_map in Hi.
  destruct (nth_error newImages i) as [imgi |] eqn:Hgi;
    [| apply nth_error_None in Hgi; lia].
  rewrite !nth_error_map, Hgi in Heq. cbn in Heq.
  destruct (nth_error newImages j) as [imgj |] eqn:Hgj; [| discriminate].
  cbn in Heq. injection Heq as Heq.
  destruct (Nat.eq_dec i j) as [-> | Hij]; [reflexivity | exfalso].
  rewrite (Hids i imgi Hgi), (Hids j imgj Hgj) in Heq.
  apply makeId_inj in Heq as [Hname Hclock].
  assert (Hfi : nth_error files i = Some (file imgi))
    by (rewrite <- Hfiles; now apply map_nth_error).
  assert (Hfj : nth_error files j = Some (file imgj))
    by (rewrite <- Hfiles; now apply map_nth_error).
  destruct (Hdiff i j _ _ Hij Hfi Hfj); tauto.
Qed.

End HandlerEdges.

(** * Further properties of the page in use *)

Section SessionEdges.
Context `{Engine}.

Lemma filter_keeps_all {A : Type} (f : A -> bool) l :
  (forall a, In a l -> f a = true) -> filter f l = l.
Proof.
  intros Hall. apply forallb_filter_id, forallb_forall. exact Hall.
Qed.

Lemma Forall_dropNth {A : Type} (P : A -> Prop) l : forall k,
  Forall P l -> Forall P (dropNth k l).
Proof.
  unfold dropNth. induction l as [| a l IH]; intros [| k] Hl; cbn; try exact Hl.
  - now inversion Hl.
  - inversion Hl; subst. constructor; [assumption | now apply IH].
Qed.

(** X9: removing an image whose identifier no other stored image carries
    takes out that image alone and keeps the order of the others; the
    result is cleared exactly when fewer than 2 images are left; error,
    loading flag and ratio are untouched. *)
Theorem removal_of_a_unique_id s before img after :
  referenceImages s = before ++ img :: after ->
  (forall other, In other (before ++ after) -> id other <> id img) ->
  referenceImages (handleRemoveImage (id img) s) = before ++ after
  /\ generatedImage (handleRemoveImage (id img) s)
     = (if (List.length (before ++ after) <? 2)%nat then None else generatedImage s)
  /\ error (handleRemoveImage (id img) s) = error s
  /\ isLoading (handleRemoveImage (id img) s) = isLoading s
  /\ aspectRatio (handleRemoveImage (id img) s) = aspectRatio s.
Proof.
  intros Hsplit Hothers.
  assert (Hfilter : filter (fun x => negb (id x =? id img)) (referenceImages s)
                    = before ++ after).
  { rewrite Hsplit, filter_app. cbn. rewrite String.eqb_refl. cbn.
    rewrite <- filter_app. apply filter_keeps_all. intros other Hin.
    apply negb_true_iff, String.eqb_neq. now apply Hothers. }
  assert (Hlen : List.length (referenceImages s) = S (List.length (before ++ after))).
  { rewrite Hsplit, !length_app. cbn. lia. }
  unfold handleRemoveImage. rewrite Hlen.
  destruct (Z.ltb_spec (Z.of_nat (S (List.length (before ++ after))) - 1) 2);
    destruct (Nat.ltb_spec (List.length (before ++ after)) 2); try lia;
    cbn; rewrite Hfilter; repeat split.
Qed.

(** X10: at most one generation call is in flight at any time, and the
    loading flag is set exactly while one is. *)
Theorem single_flight sys :
  reachable sys ->
  List.length (generations sys) <= 1
  /\ (isLoading (app sys) = true <-> generations sys <> []).
Proof.
  intros Hreach.
  destruct (reachable_phases sys Hreach)
    as [(Hgen & Hload & _) | ((call & Hgen) & Hload & _)]; rewrite Hgen, Hload; cbn.
  - split; [lia |]. split; [discriminate | congruence].
  - split; [lia |]. split; [discriminate | reflexivity].
Qed.

(** What the page keeps, whatever the events: the calls in flight carry 2
    to 4 images, the requests sent were built from 2 to 4 images and one of
    the three ratio tokens, and a stored error is the message of a refused
    selection or one prefixed by the client. *)
Lemma session_invariant sys :
  reachable sys ->
  Forall (fun call => 2 <= List.length (fst call) <= 4) (generations sys)
  /\ Forall (fun request =>
               exists imageParts r,
                 2 <= List.length imageParts <= 4
                 /\ request = requestFor imageParts (ratioToken r))
            (sent (world sys))
  /\ forall e, error (app sys) = Some e ->
               e = "You can upload a maximum of 4 images."
               \/ String.prefix "Failed to generate image: " e = true.
Proof.
  induction 1 as [| sys ev sys' Hreach (Hcalls & Hsent & Herr) Hfire].
  - repeat split; try constructor. cbn. discriminate.
  - destruct ev as [files clock | k | k | r | | k ai]; cbn in Hfire.
    + pose proof (handleFileChange_state files clock (app sys)) as (_ & _ & He).
      destruct (handleFileChange files clock (app sys)) as [app' pending].
      injection Hfire as <-. cbn in *. repeat split; try assumption.
      intros e He'. destruct He as [He | [He | He]]; rewrite He in He'.
      * now apply Herr.
      * discriminate.
      * injection He' as <-. now left.
    + destruct (nth_error (uploads sys) k) as [batch |]; [| discriminate].
      injection Hfire as <-. cbn. repeat split; try assumption.
      destruct batch; cbn; exact Herr.
    + destruct (nth_error (referenceImages (app sys)) k) as [img |]; [| discriminate].
      injection Hfire as <-. cbn. repeat split; try assumption.
      pose proof (handleRemoveImage_state (id img) (app sys)) as (He & _).
      cbn in He. rewrite He. exact Herr.
    + injection Hfire as <-. cbn. repeat split; assumption.
    + destruct (generateDisabled (app sys)) eqn:Hdis; [discriminate |].
      unfold generateDisabled in Hdis. apply orb_false_elim in Hdis as [Hcan _].
      apply negb_false_iff in Hcan. unfold canGenerate in Hcan.
      apply andb_prop in Hcan as [Hlo Hhi].
      apply Nat.leb_le in Hlo. apply Nat.leb_le in Hhi.
      unfold handleGenerate in Hfire.
      destruct (Nat.ltb_spec (List.length (referenceImages (app sys))) 2); [lia |].
      injection Hfire as <-. cbn. repeat split; try assumption.
      * apply Forall_app. split; [exact Hcalls |].
        constructor; [| constructor]. cbn. rewrite length_map. lia.
      * discriminate.
    + destruct (nth_error (generations sys) k) as [[imageParts ratio] |] eqn:Hk;
        [| discriminate].
      assert (Hn : 2 <= List.length imageParts <= 4).
      { apply nth_error_In in Hk.
        exact (proj1 (Forall_forall _ _) Hcalls _ Hk). }
      rewrite (generate_run ai imageParts (ratioToken ratio) (world sys) Hn) in Hfire.
      destruct (fst (tryBlock ai (requestFor imageParts (ratioToken ratio)) (world sys)))
        as [payload | inner]; injection Hfire as <-; cbn.
      * repeat split; [now apply Forall_dropNth | | exact Herr].
        apply Forall_app. split; [exact Hsent |].
        constructor; [| constructor]. now exists imageParts, ratio.
      * repeat split; [now apply Forall_dropNth | |].
        -- apply Forall_app. split; [exact Hsent |].
           constructor; [| constructor]. now exists imageParts, ratio.
        -- intros e [= <-]. right. exact (prefix_app "Failed to generate image: " _).
Qed.

(** X11: in any session the service only receives requests built from 2 to
    4 image parts and one of the three ratio tokens. *)
Theorem every_request_carries_2_to_4_images sys request :
  reachable sys ->
  In request (sent (world sys)) ->
  exists imageParts r,
    2 <= List.length imageParts <= 4
    /\ model request = "gemini-2.5-flash-image"
    /\ responseModalities request = [IMAGE]
    /\ contents request
       = {| text := Some (prompt (ratioToken r)); GenAI.inlineData := None |}
         :: map asPart imageParts.
Proof.
  intros Hreach Hin.
  destruct (session_invariant sys Hreach) as (_ & Hsent & _).
  destruct (proj1 (Forall_forall _ _) Hsent request Hin) as (imageParts & r & Hn & ->).
  exists imageParts, r. repeat split; apply Hn.
Qed.

(** X12: in any session a stored error is either the message of a refused
    selection or a message of the client starting with "Failed to generate
    image: "; the texts "Please upload at least 2 images.", "Please provide
    2 to 4 reference images." and "An unexpected error occurred." are never
    stored. *)
Theorem stored_error_is_limit_or_client_failure sys e :
  reachable sys ->
  error (app sys) = Some e ->
  (e = "You can upload a maximum of 4 images."
   \/ String.prefix "Failed to generate image: " e = true)
  /\ e <> "Please upload at least 2 images."
  /\ e <> "Please provide 2 to 4 reference images."
  /\ e <> "An unexpected error occurred.".
Proof.
  intros Hreach He.
  destruct (session_invariant sys Hreach) as (_ & _ & Herr).
  pose proof (Herr e He) as Hshape. split; [exact Hshape |].
  repeat split; intros ->; destruct Hshape as [Hshape | Hshape]; discriminate.
Qed.


(** The event of a selection that fits and whose files are encoded. *)
Lemma fire_accepted_batch sys files clock newImages :
  List.length (referenceImages (app sys)) + List.length files <= 4 ->
  promiseAll (mapFiles clock 0 files) = Normal newImages ->
  fire (FilesSelected (Some files) clock) sys
  = Some {| app := setError None (app sys);
            uploads := uploads sys ++ [Normal newImages];
            generations := generations sys;
            world := world sys |}.
Proof.
  intros Hfit Hall. unfold fire, handleFileChange.
  destruct (Nat.ltb_spec 4 (List.length (referenceImages (app sys)) + List.length files));
    [lia |].
  now rewrite Hall.
Qed.

(** X6: with no other encoding in flight, a selection that fits (stored +
    selected <= 4) and whose files are all readable, followed by the end
    of its encoding, clears the error and appends one image per file after
    the stored images, in the order of the selection; the count is then at
    most 4 and no encoding is left in flight. *)
Theorem accepted_batch_is_appended_in_order sys files clock :
  uploads sys = [] ->
  List.length (referenceImages (app sys)) + List.length files <= 4 ->
  Forall (fun f => dataURL f <> None) files ->
  exists newImages sys',
    run [FilesSelected (Some files) clock; FilesEncoded 0] sys = Some sys'
    /\ map file newImages = files
    /\ referenceImages (app sys') = referenceImages (app sys) ++ newImages
    /\ error (app sys') = None
    /\ List.length (referenceImages (app sys')) <= 4
    /\ uploads sys' = [].
Proof.
  intros Hnone Hfit Hread.
  destruct (readable_batch clock files 0 Hread) as (imgs & Hall).
  destruct (batch_shape clock files 0 imgs Hall) as [Hfiles _].
  exists imgs. cbn [run].
  rewrite (fire_accepted_batch sys files clock imgs Hfit Hall).
  cbn. rewrite Hnone. cbn.
  eexists. split; [reflexivity |]. cbn.
  repeat split; [exact Hfiles |].
  rewrite length_app, <- (length_map file imgs), Hfiles. exact Hfit.
Qed.

(** X14: the limit of a selection is tested against the images stored at
    that moment, not against a batch still being encoded: two batches
    selected one after the other, each fitting on its own, are both
    appended, so that more than 4 images can be stored. *)
Theorem second_batch_ignores_the_pending_one sys files1 clock1 files2 clock2 :
  uploads sys = [] ->
  List.length (referenceImages (app sys)) + List.length files1 <= 4 ->
  List.length (referenceImages (app sys)) + List.length files2 <= 4 ->
  Forall (fun f => dataURL f <> None) files1 ->
  Forall (fun f => dataURL f <> None) files2 ->
  exists sys',
    run [FilesSelected (Some files1) clock1; FilesSelected (Some files2) clock2;
         FilesEncoded 0; FilesEncoded 0] sys = Some sys'
    /\ map file (referenceImages (app sys'))
       = map file (referenceImages (app sys)) ++ files1 ++ files2
    /\ List.length (referenceImages (app sys'))
       = List.length (referenceImages (app sys))
         + List.length files1 + List.length files2
    /\ uploads sys' = [].
Proof.
  intros Hnone Hfit1 Hfit2 Hread1 Hread2.
  destruct (readable_batch clock1 files1 0 Hread1) as (imgs1 & Hall1).
  destruct (readable_batch clock2 files2 0 Hread2) as (imgs2 & Hall2).
  destruct (batch_shape clock1 files1 0 imgs1 Hall1) as [Hfiles1 _].
  destruct (batch_shape clock2 files2 0 imgs2 Hall2) as [Hfiles2 _].
  cbn [run].
  rewrite (fire_accepted_batch sys files1 clock1 imgs1 Hfit1 Hall1).
  cbv beta iota.
  erewrite (fire_accepted_batch _ files2 clock2 imgs2); [| exact Hfit2 | exact Hall2].
  cbn. rewrite Hnone. cbn.
  eexists. split; [reflexivity |]. cbn.
  split; [| split; [| reflexivity]].
  - now rewrite !map_app, Hfiles1, Hfiles2, app_assoc.
  - rewrite !length_app, <- Hfiles1, <- Hfiles2, !length_map. lia.
Qed.

End SessionEdges.

(** * Witnesses for the further properties *)

Lemma malformed_response_is_wrapped_witness :
  exists site,
    generateImageFromReferences (H := v8) missingCandidates
      [png "AAAA"; png "BBBB"] "1:1" emptyWorld
    = (Throw (JsError ("Failed to generate image: "
                       ++ typeErrorMessage (Engine := v8) site)),
       {| sent := sent emptyWorld ++ [requestFor [png "AAAA"; png "BBBB"] "1:1"];
          console := console emptyWorld
                     ++ [JsError (typeErrorMessage (Engine := v8) site)] |}).
Proof.
  apply (@malformed_response_is_wrapped v8 missingCandidates
           [png "AAAA"; png "BBBB"] "1:1" emptyWorld {| candidates := None |}).
  - cbn. lia.
  - reflexivity.
  - left. reflexivity.
Defined.

Lemma only_first_candidate_is_read_witness :
  let first := {| content := Some {| parts := Some [textOnly "No image."] |} |} in
  let second := {| content := Some {| parts := Some [inline "LATE" "image/png"] |} |} in
  generateImageFromReferences (H := v8)
    (fun _ => Normal {| candidates := Some [first] |})
    [png "AAAA"; png "BBBB"] "1:1" emptyWorld
  = generateImageFromReferences (H := v8)
      (fun _ => Normal {| candidates := Some [first; second] |})
      [png "AAAA"; png "BBBB"] "1:1" emptyWorld.
Proof.
  intros first second.
  exact (@only_first_candidate_is_read v8
           (fun _ => Normal {| candidates := Some [first] |})
           (fun _ => Normal {| candidates := Some [first; second] |})
           [png "AAAA"; png "BBBB"] "1:1" emptyWorld first [] [second]
           eq_refl eq_refl).
Defined.

Lemma thrown_value_is_a_labelled_error_witness :
  fst (generateImageFromReferences (H := v8) (rejecting JsOther)
         [png "AAAA"; png "BBBB"] "1:1" emptyWorld)
  = Throw (JsError "Failed to generate image: An unknown error occurred during image generation.")
  /\ exists message,
       JsError "Failed to generate image: An unknown error occurred during image generation."
       = JsError message
       /\ (message = "Please provide 2 to 4 reference images."
           \/ String.prefix "Failed to generate image: " message = true).
Proof.
  split; [reflexivity |].
  exact (@thrown_value_is_a_labelled_error v8 (rejecting JsOther)
           [png "AAAA"; png "BBBB"] "1:1" emptyWorld _ eq_refl).
Defined.

Lemma returned_payload_is_an_image_part_witness :
  let w' := {| sent := [requestFor [png "AAAA"; png "BBBB"] "1:1"]; console := [] |} in
  generateImageFromReferences (H := v8) pictureAnswer
    [png "AAAA"; png "BBBB"] "1:1" emptyWorld = (Normal "RESULT", w')
  /\ 2 <= List.length [png "AAAA"; png "BBBB"] <= 4
  /\ w' = {| sent := sent emptyWorld ++ [requestFor [png "AAAA"; png "BBBB"] "1:1"];
             console := console emptyWorld |}
  /\ exists response ps part blob,
       pictureAnswer (requestFor [png "AAAA"; png "BBBB"] "1:1") = Normal response
       /\ contentParts (H := v8) response = Normal ps
       /\ In part ps
       /\ GenAI.inlineData part = Some blob
       /\ String.prefix "image/" (mimeType blob) = true
       /\ "RESULT" = data blob.
Proof.
  intros w'. split; [reflexivity |].
  exact (@returned_payload_is_an_image_part v8 pictureAnswer
           [png "AAAA"; png "BBBB"] "1:1" emptyWorld "RESULT" w' eq_refl).
Defined.

Lemma preview_reproduces_the_data_url_witness :
  exists img,
    newImage portraitA 1700000000000 = Normal img
    /\ file img = portraitA
    /\ base64 img = "AAAA"
    /\ dataURL portraitA = Some (previewSrc img).
Proof.
  apply (preview_reproduces_the_data_url portraitA 1700000000000 "AAAA").
  - cbn. intros Hin. repeat (destruct Hin as [Hin | Hin]; [discriminate |]). exact Hin.
  - cbn. intros Hin. repeat (destruct Hin as [Hin | Hin]; [discriminate |]). exact Hin.
  - reflexivity.
Defined.

Lemma accepted_batch_is_appended_in_order_witness :
  let sys := stateAfter (H := v8) twoImagesStored in
  let files := [garden; street] in
  uploads sys = []
  /\ List.length (referenceImages (app sys)) + List.length files <= 4
  /\ exists newImages sys',
       run (H := v8) [FilesSelected (Some files) sameInstant; FilesEncoded 0] sys
       = Some sys'
       /\ map file newImages = files
       /\ referenceImages (app sys') = referenceImages (app sys) ++ newImages
       /\ error (app sys') = None
       /\ List.length (referenceImages (app sys')) <= 4
       /\ uploads sys' = [].
Proof.
  intros sys files.
  assert (Hfit : List.length (referenceImages (app sys)) + List.length files <= 4)
    by (vm_compute; lia).
  split; [reflexivity |]. split; [exact Hfit |].
  apply (@accepted_batch_is_appended_in_order v8 sys files sameInstant eq_refl Hfit).
  repeat constructor; discriminate.
Defined.

Lemma unreadable_file_drops_the_batch_silently_witness :
  let s := app (stateAfter (H := v8) twoImagesStored) in
  let files := [garden; brokenFile] in
  exists rejection,
    snd (handleFileChange (Some files) sameInstant s) = Some (Throw rejection)
    /\ referenceImages
         (handleFileChange_resume (Throw rejection)
            (fst (handleFileChange (Some files) sameInstant s)))
       = referenceImages s
    /\ error
         (handleFileChange_resume (Throw rejection)
            (fst (handleFileChange (Some files) sameInstant s)))
       = None.
Proof.
  intros s files.
  apply (unreadable_file_drops_the_batch_silently s files sameInstant).
  - vm_compute. lia.
  - apply Exists_cons_tl, Exists_cons_hd. reflexivity.
Defined.

Lemma batch_ids_are_distinct_witness :
  exists newImages,
    snd (handleFileChange (Some [portraitA; beach]) sameInstant initialState)
    = Some (Normal newImages)
    /\ NoDup (map id newImages).
Proof.
  eexists. split; [reflexivity |].
  apply (batch_ids_are_distinct initialState [portraitA; beach] sameInstant);
    [| reflexivity].
  intros i j fi fj Hij Hi Hj. left.
  destruct i as [| [| i]], j as [| [| j]]; cbn in Hi, Hj;
    try congruence; try (destruct i; discriminate); try (destruct j; discriminate);
    injection Hi as <-; injection Hj as <-; discriminate.
Defined.

Lemma removal_of_a_unique_id_witness :
  let img := stored beach "CCCC" in
  referenceImages (handleRemoveImage (id img) threeStored)
  = [stored portraitA "AAAA"] ++ [stored garden "DDDD"]
  /\ generatedImage (handleRemoveImage (id img) threeStored)
     = (if (List.length ([stored portraitA "AAAA"] ++ [stored garden "DDDD"]) <? 2)%nat
        then None else generatedImage threeStored)
  /\ error (handleRemoveImage (id img) threeStored) = error threeStored
  /\ isLoading (handleRemoveImage (id img) threeStored) = isLoading threeStored
  /\ aspectRatio (handleRemoveImage (id img) threeStored) = aspectRatio threeStored.
Proof.
  intros img.
  apply (removal_of_a_unique_id threeStored
           [stored portraitA "AAAA"] img [stored garden "DDDD"]).
  - reflexivity.
  - intros other [<- | [<- | []]]; discriminate.
Defined.

Lemma single_flight_witness :
  let sys := stateAfter (H := v8) twinsThenResult in
  List.length (generations sys) <= 1
  /\ (isLoading (app sys) = true <-> generations sys <> []).
Proof.
  intros sys.
  exact (@single_flight v8 sys (@stateAfter_reachable v8 twinsThenResult)).
Defined.

Lemma every_request_carries_2_to_4_images_witness :
  let sys := stateAfter (H := v8) twinsThenResult in
  let request :=
    requestFor (map toImagePart (referenceImages (app sys))) "1:1" in
  In request (sent (world sys))
  /\ exists imageParts r,
       2 <= List.length imageParts <= 4
       /\ model request = "gemini-2.5-flash-image"
       /\ responseModalities request = [IMAGE]
       /\ contents request
          = {| text := Some (prompt (ratioToken r)); GenAI.inlineData := None |}
            :: map asPart imageParts.
Proof.
  intros sys request.
  assert (Hin : In request (sent (world sys))) by (left; reflexivity).
  split; [exact Hin |].
  exact (@every_request_carries_2_to_4_images v8 sys request
           (@stateAfter_reachable v8 twinsThenResult) Hin).
Defined.

Lemma stored_error_is_limit_or_client_failure_witness :
  let sys := stateAfter (H := v8) oversizedAfterResult in
  let e := "You can upload a maximum of 4 images." in
  error (app sys) = Some e
  /\ (e = "You can upload a maximum of 4 images."
      \/ String.prefix "Failed to generate image: " e = true)
  /\ e <> "Please upload at least 2 images."
  /\ e <> "Please provide 2 to 4 reference images."
  /\ e <> "An unexpected error occurred.".
Proof.
  intros sys e. split; [reflexivity |].
  exact (@stored_error_is_limit_or_client_failure v8 sys e
           (@stateAfter_reachable v8 oversizedAfterResult) eq_refl).
Defined.


Lemma second_batch_ignores_the_pending_one_witness :
  let files1 := [portraitA; beach; garden] in
  let files2 := [portraitB; street; garden] in
  exists sys',
    run (H := v8)
      [FilesSelected (Some files1) sameInstant; FilesSelected (Some files2) sameInstant;
       FilesEncoded 0; FilesEncoded 0] start = Some sys'
    /\ map file (referenceImages (app sys'))
       = map file (referenceImages (app start)) ++ files1 ++ files2
    /\ List.length (referenceImages (app sys'))
       = List.length (referenceImages (app start))
         + List.length files1 + List.length files2
    /\ uploads sys' = [].
Proof.
  intros files1 files2.
  apply (@second_batch_ignores_the_pending_one v8 start files1 sameInstant files2 sameInstant).
  - reflexivity.
  - cbn. lia.
  - cbn. lia.
  - repeat constructor; discriminate.
  - repeat constructor; discriminate.
Defined.
